(** * Stripe checkout glue: price resolution, session creation, webhook

    A shallow embedding of [src/app.py], [src/utils.py] and [src/models.py].

    The two request handlers talk to Stripe through four calls
    ([stripe.Price.list], [stripe.Price.create],
    [stripe.checkout.Session.create], [stripe.Webhook.construct_event]).
    The Stripe client is a third-party library: it is an interface here
    ([StripeAPI]), and the handlers are written once for every
    implementation of it.  Python exceptions are an explicit [outcome],
    and the handlers run in a state-and-exception monad whose state holds
    the provider's world, the standard output, and a record of the calls
    made to the provider. *)

From Stdlib Require Import ZArith Lia Bool List String Ascii.
From Stdlib Require Import Floats.SpecFloat.
From stdpp Require Import base option list strings gmap.

Open Scope Z_scope.
Open Scope string_scope.

(** ** Python floats

    [SubscriptionRequest.price] is a Python [float]: an IEEE 754 binary64
    number.  [spec_float] with precision 53 and maximal exponent 1024 is
    the Standard Library's executable specification of that format. *)

Module Float64.

Definition prec : Z := 53.
Definition emax : Z := 1024.

Definition float : Type := spec_float.

(** [x * y] on Python floats: round to nearest, ties to even. *)
Definition mul (x y : float) : float := SFmul prec emax x y.

(** The float of a Python [int] (exact on the integers used here). *)
Definition of_Z (n : Z) : float := binary_normalize prec emax n 0 false.

(** [m * 2^e] is a canonical binary64 number. *)
Definition valid (x : float) : bool := valid_binary prec emax x.

(** The integer part of a finite float, rounded toward zero. *)
Definition trunc (x : float) : option Z :=
  match x with
  | S754_zero _ => Some 0
  | S754_finite s m e =>
      let mag := Z.shiftl (Z.pos m) e in
      Some (if s then - mag else mag)
  | S754_infinity _ | S754_nan => None
  end.

(** The binary64 number nearest to the decimal 19.99, which is what a
    JSON body carrying [19.99] is parsed to:
    [0x1.3fd70a3d70a3dp+4 = 5626684784446013 * 2^-48]. *)
Definition f19_99 : float := S754_finite false 5626684784446013 (-48).

(** The float [1.0]. *)
Definition f1 : float := of_Z 1.

End Float64.

(** ** Python values, exceptions and the handler monad *)

(** The values that reach a format string or a JSON body here.
    [PyOther] stands for any other value and carries its [str()]. *)
Inductive pyval : Type :=
| PyNone
| PyBool (b : bool)
| PyStr (s : string)
| PyOther (rendered : string).

Definition str_of_pyval (v : pyval) : string :=
  match v with
  | PyNone => "None"
  | PyBool true => "True"
  | PyBool false => "False"
  | PyStr s => s
  | PyOther r => r
  end.

(** Truth value of an [Optional[str]], as tested by [if not price_id]. *)
Definition truthy (x : option string) : bool :=
  match x with
  | None => false
  | Some s => negb (String.eqb s "")
  end.

(** The exception classes that the handlers raise or name in an
    [except] clause.  [SignatureVerificationError] is a subclass of
    [StripeError]; every class below is a subclass of [Exception].
    A Stripe error carries its [user_message], the others the text
    [str(e)] gives; [HTTPException] is raised by the handlers only,
    outside their [try] blocks. *)
Inductive exn : Type :=
| StripeError (user_message : string)
| SignatureVerificationError (message : string)
| ValueError (message : string)
| OverflowError (message : string)
| HTTPException (status_code : Z) (detail : string)
| OtherException (message : string).

Definition isinstance_StripeError (e : exn) : bool :=
  match e with
  | StripeError _ | SignatureVerificationError _ => true
  | _ => false
  end.

Definition isinstance_ValueError (e : exn) : bool :=
  match e with ValueError _ => true | _ => false end.

Definition isinstance_SignatureVerificationError (e : exn) : bool :=
  match e with SignatureVerificationError _ => true | _ => false end.

(** [str(e)] and [e.user_message]. *)
Definition str (e : exn) : string :=
  match e with
  | StripeError m | SignatureVerificationError m | ValueError m
  | OverflowError m | OtherException m => m
  | HTTPException _ d => d
  end.

Definition user_message (e : exn) : string := str e.

Inductive outcome (A : Type) : Type :=
| Return (a : A)
| Raise (e : exn).
Arguments Return {A} a.
Arguments Raise {A} e.

(** [int(x)] on a float: truncation toward zero; NaN and the infinities
    raise. *)
Definition int_of_float (x : Float64.float) : outcome Z :=
  match Float64.trunc x with
  | Some n => Return n
  | None =>
      match x with
      | S754_nan => Raise (ValueError "cannot convert float NaN to integer")
      | _ => Raise (OverflowError
                      "cannot convert float infinity to integer")
      end
  end.

Module Monad.
Section Defs.
Context {S : Type}.

Definition M (A : Type) : Type := S -> outcome A * S.

Definition ret {A} (a : A) : M A := fun s => (Return a, s).

Definition raise {A} (e : exn) : M A := fun s => (Raise e, s).

Definition bind {A B} (m : M A) (k : A -> M B) : M B :=
  fun s => match m s with
           | (Return a, s') => k a s'
           | (Raise e, s') => (Raise e, s')
           end.

(** [try: m  except ... as e: h e].  A handler that does not name the
    class of [e] re-raises it itself. *)
Definition try_except {A} (m : M A) (h : exn -> M A) : M A :=
  fun s => match m s with
           | (Return a, s') => (Return a, s')
           | (Raise e, s') => h e s'
           end.

Definition lift {A} (o : outcome A) : M A := fun s => (o, s).
End Defs.
End Monad.
Import Monad.

Notation "'let*' x ':=' m 'in' k" := (bind m (fun x => k))
  (at level 10, x pattern, m at level 100, k at level 200).
Notation "m ';;' k" := (bind m (fun _ => k))
  (at level 100, k at level 200, right associativity).

(** ** Data model *)

(** [models.SubscriptionRequest].  Omitting [price] in the body gives the
    default [1], whose product with [100] is the same integer as that of
    the float [1.0]. *)
Module SubscriptionRequest.
Record t : Type := Build {
  subscription_type : string;
  user_email : string;
  price : Float64.float
}.
End SubscriptionRequest.

(** A Stripe price object, with the attributes the code reads.
    [unit_amount] is nullable on Stripe's side. *)
Module Price.
Record t : Type := Build {
  id : string;
  unit_amount : option Z;
  currency : string;
  product : string
}.
End Price.

(** The keyword arguments of [stripe.checkout.Session.create]. *)
Module LineItem.
Record t : Type := Build {
  price : option string;
  quantity : Z
}.
End LineItem.

Module SessionParams.
Record t : Type := Build {
  payment_method_types : list string;
  line_items : list LineItem.t;
  mode : string;
  customer_email : string;
  success_url : string;
  cancel_url : string;
  metadata : gmap string string
}.
End SessionParams.

(** A checkout session as returned by Stripe; the code reads [url]. *)
Module Session.
Record t : Type := Build {
  id : string;
  url : string
}.
End Session.

(** A [stripe.Event]: [event['type']] and [event['data']['object']],
    which Stripe's event schema always carries.  The nested object is a
    dictionary. *)
Module Event.
Record t : Type := Build {
  type : string;
  data_object : gmap string pyval
}.
End Event.

(** The incoming request of the webhook route: raw body and headers
    (Starlette looks header names up in lower case). *)
Module Request.
Record t : Type := Build {
  body : string;
  headers : gmap string string
}.
End Request.

(** [fastapi.responses.JSONResponse]; [status_code] defaults to 200. *)
Module JSONResponse.
Record t : Type := Build {
  content : gmap string pyval;
  status_code : Z
}.
Definition make (content : gmap string pyval) : t :=
  {| content := content; status_code := 200 |}.
End JSONResponse.

(** Module-level configuration of [app.py], read from the environment
    once; [os.getenv] gives [None] for an unset variable. *)
Module Config.
Record t : Type := Build {
  standard_price_id : option string;
  custom_sub_id : option string;
  webhook_secret : option string
}.
End Config.

Definition DOMAIN : string := "http://localhost:8000".

(** ** The provider interface *)

(** The four Stripe calls of the program, over a provider world [W].
    [Price_list] returns the [data] of the page that
    [stripe.Price.list] fetched, which is what iterating the returned
    list object visits. *)
Class StripeAPI (W : Type) : Type := {
  Price_list : option string -> Z -> W -> outcome (list Price.t) * W;
  Price_create :
    Z -> string -> option string -> W -> outcome Price.t * W;
  Session_create : SessionParams.t -> W -> outcome Session.t * W;
  Webhook_construct_event :
    string -> option string -> option string -> W -> outcome Event.t * W
}.

(** A call made to the provider, and what it raised (if it did). *)
Inductive call : Type :=
| CPrice_list (product : option string) (limit : Z)
| CPrice_create (unit_amount : Z) (currency : string)
    (product : option string)
| CSession_create (params : SessionParams.t)
| CWebhook_construct_event (payload : string) (sig_header : option string)
    (secret : option string).

Definition raised {A} (o : outcome A) : option exn :=
  match o with Return _ => None | Raise e => Some e end.

(** The state the handlers run in: the provider's world, the calls made
    so far (oldest first) and the lines printed so far. *)
Record state (W : Type) : Type := State {
  world : W;
  calls : list (call * option exn);
  stdout : list string
}.
Arguments State {W} world calls stdout.
Arguments world {W} s.
Arguments calls {W} s.
Arguments stdout {W} s.

Definition init {W} (w : W) : state W := State w [] [].

(** ** The program *)

Section Program.
Context {W : Type} `{StripeAPI W}.
Variable cfg : Config.t.

(** One provider call: run it on the world and record it. *)
Definition provider {A} (c : call) (op : W -> outcome A * W)
  : M (S := state W) A :=
  fun s =>
    let '(o, w') := op (world s) in
    (o, State w' (calls s ++ [(c, raised o)]) (stdout s)).

Definition print (line : string) : M (S := state W) unit :=
  fun s => (Return tt, State (world s) (calls s) (stdout s ++ [line])).

(** *** utils.py *)

(** [price.unit_amount == amount and price.currency == currency];
    a null [unit_amount] equals no integer. *)
Definition matches (amount : Z) (currency : string) (price : Price.t)
  : bool :=
  match Price.unit_amount price with
  | Some a => Z.eqb a amount
  | None => false
  end
  && String.eqb (Price.currency price) currency.

(** The [for] loop of [get_existing_price] over the listed prices. *)
Fixpoint first_match (amount : Z) (currency : string)
    (prices : list Price.t) : option string :=
  match prices with
  | [] => None
  | price :: rest =>
      if matches amount currency price
      then Some (Price.id price)
      else first_match amount currency rest
  end.

Definition get_existing_price (product_id : option string) (amount : Z)
    (currency : string) : M (option string) :=
  let* prices := provider (CPrice_list product_id 100)
                          (Price_list product_id 100) in
  ret (first_match amount currency prices).

Definition create_new_price (product_id : option string) (amount : Z)
    (currency : string) : M (option string) :=
  let* custom_price :=
    provider (CPrice_create amount currency product_id)
             (Price_create amount currency product_id) in
  ret (Some (Price.id custom_price)).

(** The default of the [currency] parameter of both functions. *)
Definition default_currency : string := "eur".

(** *** app.py: create_subscription_session *)

(** Lines 39-51: the price id and the session mode. *)
Definition resolve_price (request : SubscriptionRequest.t)
  : M (option string * string) :=
  if String.eqb (SubscriptionRequest.subscription_type request) "standard"
  then
    ret (Config.standard_price_id cfg, "subscription")
  else if String.eqb (SubscriptionRequest.subscription_type request)
                     "custom"
  then
    let* amount_in_cents :=
      lift (int_of_float
              (Float64.mul (SubscriptionRequest.price request)
                           (Float64.of_Z 100))) in
    let* price_id :=
      get_existing_price (Config.custom_sub_id cfg) amount_in_cents
                         default_currency in
    let* price_id :=
      (if negb (truthy price_id)
       then create_new_price (Config.custom_sub_id cfg) amount_in_cents
                             default_currency
       else ret price_id) in
    ret (price_id, "payment")
  else
    raise (ValueError
             "Invalid subscription type. Must be 'standard' or 'custom'.").

(** Lines 54-69: the arguments of [stripe.checkout.Session.create]. *)
Definition session_params (request : SubscriptionRequest.t)
    (price_id : option string) (sub_mode : string) : SessionParams.t :=
  {| SessionParams.payment_method_types := ["card"];
     SessionParams.line_items :=
       [ {| LineItem.price := price_id; LineItem.quantity := 1 |} ];
     SessionParams.mode := sub_mode;
     SessionParams.customer_email :=
       SubscriptionRequest.user_email request;
     SessionParams.success_url := DOMAIN ++ "/success.html";
     SessionParams.cancel_url := DOMAIN ++ "/cancel.html";
     SessionParams.metadata :=
       {[ "user_email" := SubscriptionRequest.user_email request ]} |}.

(** Lines 39-71: the body of the [try]. *)
Definition checkout_body (request : SubscriptionRequest.t)
  : M (gmap string pyval) :=
  let* (price_id, sub_mode) := resolve_price request in
  let* checkout_session :=
    provider (CSession_create (session_params request price_id sub_mode))
             (Session_create (session_params request price_id sub_mode)) in
  ret {[ "url" := PyStr (Session.url checkout_session) ]}.

(** Lines 72-75: the two [except] clauses, in order. *)
Definition checkout_except (e : exn) : exn :=
  if isinstance_StripeError e
  then HTTPException 400 ("Stripe error: " ++ user_message e)
  else HTTPException 400 ("An error occurred: " ++ str e).

Definition create_subscription_session (request : SubscriptionRequest.t)
  : M (gmap string pyval) :=
  try_except (checkout_body request)
             (fun e => raise (checkout_except e)).

(** *** app.py: webhook *)

(** Lines 103-108: the two [except] clauses around
    [construct_event]; any other exception propagates. *)
Definition webhook_except (e : exn) : exn :=
  if isinstance_ValueError e
  then HTTPException 400 ("Invalid payload: " ++ str e)
  else if isinstance_SignatureVerificationError e
  then HTTPException 400 ("Invalid signature: " ++ str e)
  else e.

Definition webhook (request : Request.t) : M JSONResponse.t :=
  let payload := Request.body request in
  let sig_header := Request.headers request !! "stripe-signature" in
  let* event :=
    try_except
      (provider
         (CWebhook_construct_event payload sig_header
                                   (Config.webhook_secret cfg))
         (Webhook_construct_event payload sig_header
                                  (Config.webhook_secret cfg)))
      (fun e => raise (webhook_except e)) in
  (if String.eqb (Event.type event) "checkout.session.completed"
   then
     let checkout_session := Event.data_object event in
     let customer_email :=
       default PyNone (checkout_session !! "customer_email") in
     print ("Checkout session completed with email: "
            ++ str_of_pyval customer_email)
   else
     print ("Unhandled event type " ++ Event.type event)) ;;
  ret (JSONResponse.make {[ "success" := PyBool true ]}).

End Program.

(** ** A reference provider

    An executable model of the Stripe account the program talks to, used
    where a claim depends on what the provider stores: prices are kept in
    listing order (Stripe lists the most recently created first), a
    listing returns one page of at most [limit] prices of the product,
    and a created price is stored.  [faults] scripts the outcome of the
    coming calls ([Some e]: the call raises [e] and changes nothing
    else), so that every provider failure can be played. *)

Module RefStripe.

Record t : Type := World {
  prices : list Price.t;
  sessions : list (Session.t * SessionParams.t);
  deliveries : list (string * string * option Event.t);
  faults : list (option exn)
}.

Definition empty : t := World [] [] [] [].

Definition next_fault (w : t) : option exn * t :=
  match faults w with
  | [] => (None, w)
  | f :: rest => (f, World (prices w) (sessions w) (deliveries w) rest)
  end.

Definition with_fault {A} (op : t -> outcome A * t)
    (w : t) : outcome A * t :=
  match next_fault w with
  | (Some e, w') => (Raise e, w')
  | (None, w') => op w'
  end.

Definition of_product (product : option string) (p : Price.t) : bool :=
  match product with
  | None => true
  | Some pr => String.eqb (Price.product p) pr
  end.

(** Everything the provider lists for [product], most recent first. *)
Definition listing (product : option string) (w : t)
  : list Price.t :=
  List.filter (of_product product) (prices w).

Definition Price_list (product : option string) (limit : Z)
    (w : t) : outcome (list Price.t) * t :=
  with_fault
    (fun w => (Return (take (Z.to_nat limit) (listing product w)), w)) w.

Definition fresh (prefix : string) (n : nat) : string :=
  prefix ++ pretty.pretty n.

Definition Price_create (unit_amount : Z) (currency : string)
    (product : option string) (w : t) : outcome Price.t * t :=
  with_fault
    (fun w =>
       match product with
       | None => (Raise (StripeError "Missing required param: product."), w)
       | Some pr =>
           let p := {| Price.id := fresh "price_" (length (prices w));
                       Price.unit_amount := Some unit_amount;
                       Price.currency := currency;
                       Price.product := pr |} in
           (Return p,
            World (p :: prices w) (sessions w) (deliveries w) (faults w))
       end) w.

Definition Session_create (params : SessionParams.t) (w : t)
  : outcome Session.t * t :=
  with_fault
    (fun w =>
       let i := fresh "cs_" (length (sessions w)) in
       let cs := {| Session.id := i;
                    Session.url := "https://checkout.stripe.com/c/pay/"
                                   ++ i |} in
       (Return cs,
        World (prices w) ((cs, params) :: sessions w) (deliveries w)
              (faults w))) w.

(** [deliveries] lists the payloads signed for the endpoint secret:
    payload, the signature header that verifies it, and the event it
    decodes to ([None]: the body is not a JSON event). *)
Fixpoint verify (ds : list (string * string * option Event.t))
    (payload : string) (sig_header : string) : outcome Event.t :=
  match ds with
  | [] => Raise (SignatureVerificationError
                   "No signatures found matching the expected signature for payload")
  | (p, h, ev) :: rest =>
      if String.eqb p payload && String.eqb h sig_header
      then match ev with
           | Some ev => Return ev
           | None => Raise (ValueError "Expecting value: line 1 column 1 (char 0)")
           end
      else verify rest payload sig_header
  end.

Definition Webhook_construct_event (payload : string)
    (sig_header : option string) (secret : option string) (w : t)
  : outcome Event.t * t :=
  with_fault
    (fun w =>
       match sig_header with
       | None => (Raise (SignatureVerificationError
                           "Unable to extract timestamp and signatures from header"),
                  w)
       | Some h => (verify (deliveries w) payload h, w)
       end) w.

#[global] Instance api : StripeAPI t :=
  Build_StripeAPI t Price_list Price_create Session_create
                  Webhook_construct_event.

End RefStripe.

(** ** Sample configuration, requests and provider worlds *)

Module Samples.

Definition cfg : Config.t :=
  {| Config.standard_price_id := Some "price_standard";
     Config.custom_sub_id := Some "prod_custom";
     Config.webhook_secret := Some "whsec_test" |}.

Definition standard_request : SubscriptionRequest.t :=
  SubscriptionRequest.Build "standard" "a@b.com" Float64.f1.

Definition custom_19_99 : SubscriptionRequest.t :=
  SubscriptionRequest.Build "custom" "a@b.com" Float64.f19_99.

Definition premium_request : SubscriptionRequest.t :=
  SubscriptionRequest.Build "premium" "a@b.com" Float64.f1.

(** A price of the custom product, [n] minor units, in euro. *)
Definition eur (i : string) (n : Z) : Price.t :=
  {| Price.id := i; Price.unit_amount := Some n;
     Price.currency := "eur"; Price.product := "prod_custom" |}.

(** [k] prices of the custom product, of [5000 + k - 1] down to [5000]
    minor units. *)
Fixpoint other_prices (k : nat) : list Price.t :=
  match k with
  | O => []
  | S k' => eur (RefStripe.fresh "price_" k') (5000 + Z.of_nat k')
            :: other_prices k'
  end.

(** An account whose custom product has 101 prices: the 100 most
    recent ones are of other amounts, the oldest one is of 1998 minor
    units. *)
Definition crowded : RefStripe.t :=
  RefStripe.World (other_prices 100 ++ [eur "price_old" 1998]) [] [] [].

(** An account where the price of 1998 minor units is listed first. *)
Definition stocked : RefStripe.t :=
  RefStripe.World (eur "price_old" 1998 :: other_prices 3) [] [] [].

Definition failing (fs : list (option exn)) : RefStripe.t :=
  RefStripe.World [] [] [] fs.

(** Webhook deliveries: one completed checkout, one other event, one
    signed body that is not an event. *)
Definition completed_event : Event.t :=
  {| Event.type := "checkout.session.completed";
     Event.data_object := {[ "customer_email" := PyStr "a@b.com" ]} |}.

Definition other_event : Event.t :=
  {| Event.type := "invoice.paid"; Event.data_object := ∅ |}.

Definition hooks : RefStripe.t :=
  RefStripe.World [] []
    [ ("body1", "t=1,v1=aa", Some completed_event);
      ("body2", "t=2,v1=bb", Some other_event);
      ("body3", "t=3,v1=cc", None) ] [].

Definition delivery (payload sig_header : string) : Request.t :=
  {| Request.body := payload;
     Request.headers := {[ "stripe-signature" := sig_header ]} |}.

Definition unsigned (payload : string) : Request.t :=
  {| Request.body := payload; Request.headers := ∅ |}.

End Samples.

(** The verification call that [webhook] makes for [request]. *)
Definition construct_event_call (cfg : Config.t) (request : Request.t)
  : call :=
  CWebhook_construct_event (Request.body request)
    (Request.headers request !! "stripe-signature")
    (Config.webhook_secret cfg).

(** The response body of a successful webhook delivery. *)
Definition ack : JSONResponse.t :=
  {| JSONResponse.content := {[ "success" := PyBool true ]};
     JSONResponse.status_code := 200 |}.

(** Reading the record of calls.  [clean made]: none of the calls
    raised.  [faithful made o]: a call that raised is the last call made
    and its exception is the outcome [o]; nothing is called after a
    failure.  [tracked m]: every run of [m] extends the record by calls
    that are faithful to its outcome. *)
Definition clean (made : list (call * option exn)) : Prop :=
  Forall (fun x => snd x = None) made.

Definition faithful {A} (made : list (call * option exn)) (o : outcome A)
  : Prop :=
  clean made
  \/ exists (before : list (call * option exn)) (c : call) (e : exn),
       made = (before ++ [(c, Some e)])%list
       /\ clean before /\ o = Raise e.

Definition tracked {W A} (m : M (S := state W) A) : Prop :=
  forall s, exists made,
    calls (snd (m s)) = (calls s ++ made)%list
    /\ faithful made (fst (m s)).

(** [Session.create] is called on the world of [s1] with [params], and
    [s'] is the state after that call. *)
Definition session_call_made {W} `{StripeAPI W} (params : SessionParams.t)
    (s1 s' : state W) : Prop :=
  exists o w2,
    Session_create params (world s1) = (o, w2)
    /\ s' = State w2 (calls s1 ++ [(CSession_create params, raised o)])
                  (stdout s1).

(** The sign bit of a float (NaN has none that matters here). *)
Definition sign_bit (x : Float64.float) : bool :=
  match x with
  | S754_zero sgn | S754_infinity sgn | S754_finite sgn _ _ => sgn
  | S754_nan => false
  end.

(** Which of the four provider calls a recorded call is. *)
Inductive kind : Type :=
| ListPrices
| CreatePrice
| CreateSession
| VerifyEvent.

Definition kind_of (c : call) : kind :=
  match c with
  | CPrice_list _ _ => ListPrices
  | CPrice_create _ _ _ => CreatePrice
  | CSession_create _ => CreateSession
  | CWebhook_construct_event _ _ _ => VerifyEvent
  end.

Definition kinds (made : list (call * option exn)) : list kind :=
  map (fun x => kind_of (fst x)) made.

(** * Properties *)

Ltac run :=
  cbv beta delta [create_subscription_session checkout_body resolve_price
                  webhook get_existing_price create_new_price provider
                  print bind ret raise lift try_except] in *;
  cbn beta iota zeta in *.

(** ** Webhook receiver *)

Section Webhook.
Context {W : Type} `{StripeAPI W}.
Variable cfg : Config.t.
Variable request : Request.t.

(** C3: when [construct_event] rejects the payload (a [ValueError])
    or the signature (a [SignatureVerificationError]), the handler
    raises [HTTPException(400)] with a detail message, and neither
    branch of the dispatch runs: nothing is printed and the only
    provider call is the rejected verification. *)
Theorem webhook_rejects_unverified (s : state W) (e : exn) (w' : W) :
  Webhook_construct_event
    (Request.body request)
    (Request.headers request !! "stripe-signature")
    (Config.webhook_secret cfg) (world s) = (Raise e, w') ->
  isinstance_ValueError e || isinstance_SignatureVerificationError e
    = true ->
  webhook cfg request s =
    (Raise (HTTPException 400
              ((if isinstance_ValueError e then "Invalid payload: "
                else "Invalid signature: ") ++ str e)),
     State w' (calls s ++ [(construct_event_call cfg request, Some e)])
           (stdout s)).
Proof.
  intros Hev Hcls. unfold construct_event_call. run.
  rewrite Hev. cbn.
  unfold webhook_except.
  destruct (isinstance_ValueError e); [reflexivity|].
  cbn in Hcls. rewrite Hcls. reflexivity.
Qed.

(** C6: once [construct_event] returns an event, the handler returns
    [JSONResponse({"success": True})], status 200, whatever the type
    of the event. *)
Theorem webhook_acknowledges (s : state W) (event : Event.t) (w' : W) :
  Webhook_construct_event
    (Request.body request)
    (Request.headers request !! "stripe-signature")
    (Config.webhook_secret cfg) (world s) = (Return event, w') ->
  fst (webhook cfg request s) = Return ack
  /\ JSONResponse.status_code ack = 200
  /\ JSONResponse.content ack !! "success" = Some (PyBool true).
Proof.
  intros Hev. split; [|split; reflexivity]. run.
  rewrite Hev. cbn.
  destruct (String.eqb (Event.type event) "checkout.session.completed");
    reflexivity.
Qed.

(** C7: for a verified event of type [checkout.session.completed] the
    handler reads [customer_email] from [event.data.object] with
    [.get] (absent gives [None], no error), prints one line with it,
    makes no further provider call, and returns the 200
    acknowledgment. *)
Theorem webhook_checkout_completed (s : state W) (event : Event.t)
    (w' : W) :
  Webhook_construct_event
    (Request.body request)
    (Request.headers request !! "stripe-signature")
    (Config.webhook_secret cfg) (world s) = (Return event, w') ->
  Event.type event = "checkout.session.completed" ->
  webhook cfg request s =
    (Return ack,
     State w' (calls s ++ [(construct_event_call cfg request, None)])
           (stdout s ++
              ["Checkout session completed with email: "
               ++ str_of_pyval
                    (default PyNone
                       (Event.data_object event !! "customer_email"))])).
Proof.
  intros Hev Hty. unfold construct_event_call. run.
  rewrite Hev, Hty. reflexivity.
Qed.

End Webhook.

(** Witnesses on the reference provider. *)

Lemma webhook_rejects_unverified_witness :
  webhook Samples.cfg (Samples.delivery "body1" "t=1,v1=zz")
          (init Samples.hooks) =
    (Raise (HTTPException 400
       "Invalid signature: No signatures found matching the expected signature for payload"),
     State Samples.hooks
       [(construct_event_call Samples.cfg
           (Samples.delivery "body1" "t=1,v1=zz"),
         Some (SignatureVerificationError
           "No signatures found matching the expected signature for payload"))]
       []).
Proof.
  apply (webhook_rejects_unverified Samples.cfg
           (Samples.delivery "body1" "t=1,v1=zz") (init Samples.hooks)
           (SignatureVerificationError
              "No signatures found matching the expected signature for payload")
           Samples.hooks); reflexivity.
Defined.

Lemma webhook_acknowledges_witness :
  fst (webhook Samples.cfg (Samples.delivery "body2" "t=2,v1=bb")
               (init Samples.hooks)) = Return ack.
Proof.
  apply (webhook_acknowledges Samples.cfg
           (Samples.delivery "body2" "t=2,v1=bb") (init Samples.hooks)
           Samples.other_event Samples.hooks); reflexivity.
Defined.

Lemma webhook_checkout_completed_witness :
  webhook Samples.cfg (Samples.delivery "body1" "t=1,v1=aa")
          (init Samples.hooks) =
    (Return ack,
     State Samples.hooks
       [(construct_event_call Samples.cfg
           (Samples.delivery "body1" "t=1,v1=aa"), None)]
       ["Checkout session completed with email: a@b.com"]).
Proof.
  apply (webhook_checkout_completed Samples.cfg
           (Samples.delivery "body1" "t=1,v1=aa") (init Samples.hooks)
           Samples.completed_event Samples.hooks); reflexivity.
Defined.

(** A request without the signature header, and a signed body that is
    not an event: both are rejected with 400 and nothing is printed. *)
Example webhook_missing_header :
  webhook Samples.cfg (Samples.unsigned "body1") (init Samples.hooks) =
    (Raise (HTTPException 400
       "Invalid signature: Unable to extract timestamp and signatures from header"),
     State Samples.hooks
       [(CWebhook_construct_event "body1" None (Some "whsec_test"),
         Some (SignatureVerificationError
           "Unable to extract timestamp and signatures from header"))]
       []).
Proof. reflexivity. Qed.

Example webhook_invalid_payload :
  let run := webhook Samples.cfg (Samples.delivery "body3" "t=3,v1=cc")
               (init Samples.hooks) in
  fst run = Raise (HTTPException 400
              "Invalid payload: Expecting value: line 1 column 1 (char 0)")
  /\ stdout (snd run) = [].
Proof. split; reflexivity. Qed.

(** An event of another type is logged and acknowledged. *)
Example webhook_unhandled_type :
  let run := webhook Samples.cfg (Samples.delivery "body2" "t=2,v1=bb")
               (init Samples.hooks) in
  fst run = Return ack
  /\ stdout (snd run) = ["Unhandled event type invoice.paid"].
Proof. split; reflexivity. Qed.

(** An exception of [construct_event] that neither clause names leaves
    the handler as it is. *)
Example webhook_other_exception :
  fst (webhook Samples.cfg (Samples.delivery "body1" "t=1,v1=aa")
         (init (Samples.failing [Some (OtherException "boom")])))
  = Raise (OtherException "boom").
Proof. reflexivity. Qed.

(** ** The record of provider calls *)

Section Tracking.
Context {W : Type} `{StripeAPI W}.

Lemma clean_app (m1 m2 : list (call * option exn)) :
  clean m1 -> clean m2 -> clean (m1 ++ m2).
Proof. unfold clean. intros H1 H2. apply Forall_app. split; assumption. Qed.

Lemma faithful_app {A} (m1 m2 : list (call * option exn))
    (o : outcome A) :
  clean m1 -> faithful m2 o -> faithful (m1 ++ m2) o.
Proof.
  intros H1 [H2 | (before & c & e & -> & Hb & ->)].
  - left. apply clean_app; assumption.
  - right. exists (m1 ++ before)%list, c, e.
    split; [apply app_assoc|].
    split; [apply clean_app; assumption | reflexivity].
Qed.

Lemma faithful_Return_clean {A} (made : list (call * option exn))
    (a : A) :
  faithful made (Return a) -> clean made.
Proof.
  intros [Hc | (before & c & e & _ & _ & Habs)];
    [exact Hc | discriminate Habs].
Qed.

Lemma tracked_pure {A} (o : outcome A) :
  tracked (W := W) (fun s => (o, s)).
Proof.
  intros s. exists []. cbn. split; [symmetry; apply app_nil_r|].
  left. constructor.
Qed.

Lemma tracked_provider {A} (c : call) (op : W -> outcome A * W) :
  tracked (provider c op).
Proof.
  intros s. unfold provider.
  destruct (op (world s)) as [o w'].
  exists [(c, raised o)]. cbn. split; [reflexivity|].
  destruct o as [a|e]; cbn.
  - left. repeat constructor.
  - right. exists [], c, e. repeat split. constructor.
Qed.

Lemma tracked_bind {A B} (m : M (S := state W) A)
    (k : A -> M (S := state W) B) :
  tracked m -> (forall a, tracked (k a)) -> tracked (bind m k).
Proof.
  intros Hm Hk s. unfold bind.
  destruct (Hm s) as (made1 & Hc1 & Hf1).
  destruct (m s) as [[a|e] s1]; cbn in *.
  - destruct (Hk a s1) as (made2 & Hc2 & Hf2).
    exists (made1 ++ made2)%list. split.
    + rewrite Hc2, Hc1. symmetry. apply app_assoc.
    + apply faithful_app; [|exact Hf2].
      exact (faithful_Return_clean _ _ Hf1).
  - exists made1. split; [exact Hc1|].
    destruct Hf1 as [Hc | (before & c & e' & -> & Hb & [= ->])].
    + left. exact Hc.
    + right. exists before, c, e'. repeat split. exact Hb.
Qed.

Lemma tracked_get_existing_price product_id amount currency :
  tracked (W := W) (get_existing_price product_id amount currency).
Proof.
  apply tracked_bind; [apply tracked_provider|].
  intros prices. apply tracked_pure.
Qed.

Lemma tracked_create_new_price product_id amount currency :
  tracked (W := W) (create_new_price product_id amount currency).
Proof.
  apply tracked_bind; [apply tracked_provider|].
  intros p. apply tracked_pure.
Qed.

Lemma tracked_resolve_price cfg request :
  tracked (W := W) (resolve_price cfg request).
Proof.
  unfold resolve_price.
  destruct (String.eqb _ "standard"); [apply tracked_pure|].
  destruct (String.eqb _ "custom"); [|apply tracked_pure].
  apply tracked_bind; [apply tracked_pure|]. intros n.
  apply tracked_bind; [apply tracked_get_existing_price|]. intros found.
  apply tracked_bind; [|intros p; apply tracked_pure].
  destruct (negb _); [apply tracked_create_new_price | apply tracked_pure].
Qed.

Lemma tracked_checkout_body cfg request :
  tracked (W := W) (checkout_body cfg request).
Proof.
  apply tracked_bind; [apply tracked_resolve_price|].
  intros [price_id sub_mode].
  apply tracked_bind; [apply tracked_provider|].
  intros cs. apply tracked_pure.
Qed.

End Tracking.

(** ** Checkout initiator *)

Section Checkout.
Context {W : Type} `{StripeAPI W}.
Variable cfg : Config.t.
Variable request : SubscriptionRequest.t.

(** The handler is its [try] body followed by the translation of a
    raised exception. *)
Lemma create_subscription_session_body (s : state W) :
  create_subscription_session cfg request s =
    match checkout_body cfg request s with
    | (Return r, s') => (Return r, s')
    | (Raise e, s') => (Raise (checkout_except e), s')
    end.
Proof. reflexivity. Qed.

Lemma checkout_except_400 (e : exn) :
  checkout_except e =
    HTTPException 400
      (if isinstance_StripeError e
       then "Stripe error: " ++ user_message e
       else "An error occurred: " ++ str e).
Proof. unfold checkout_except. destruct (isinstance_StripeError e); reflexivity. Qed.

(** After the price is resolved the body makes one call,
    [Session.create], and wraps its [url]. *)
Lemma checkout_body_resolved (s s1 : state W) (price_id : option string)
    (sub_mode : string) :
  resolve_price cfg request s = (Return (price_id, sub_mode), s1) ->
  checkout_body cfg request s =
    let params := session_params request price_id sub_mode in
    let '(o, w2) := Session_create params (world s1) in
    (match o with
     | Return cs => Return {[ "url" := PyStr (Session.url cs) ]}
     | Raise e => Raise e
     end,
     State w2 (calls s1 ++ [(CSession_create params, raised o)])
           (stdout s1)).
Proof.
  intros Hres. unfold checkout_body, bind at 1. rewrite Hres.
  unfold bind, provider, ret. cbn zeta.
  destruct (Session_create _ _) as [[cs|e] w2]; reflexivity.
Qed.

Lemma checkout_body_unresolved (s s1 : state W) (e : exn) :
  resolve_price cfg request s = (Raise e, s1) ->
  checkout_body cfg request s = (Raise e, s1).
Proof.
  intros Hres. unfold checkout_body, bind at 1. rewrite Hres. reflexivity.
Qed.

(** C4: a [subscription_type] other than ["standard"] and ["custom"]
    raises [HTTPException(400)] with a detail message and leaves the
    state as it was: no provider call is made, so no session is
    created. *)
Theorem invalid_type_rejected (s : state W) :
  SubscriptionRequest.subscription_type request <> "standard" ->
  SubscriptionRequest.subscription_type request <> "custom" ->
  create_subscription_session cfg request s =
    (Raise (HTTPException 400
       "An error occurred: Invalid subscription type. Must be 'standard' or 'custom'."),
     s)
  /\ forall params o,
       In (CSession_create params, o)
          (calls (snd (create_subscription_session cfg request s))) ->
       In (CSession_create params, o) (calls s).
Proof.
  intros Hstd Hcus.
  apply String.eqb_neq in Hstd. apply String.eqb_neq in Hcus.
  assert (Heq : create_subscription_session cfg request s =
    (Raise (HTTPException 400
       "An error occurred: Invalid subscription type. Must be 'standard' or 'custom'."),
     s)).
  { run. rewrite Hstd, Hcus. reflexivity. }
  split; [exact Heq|].
  intros params o. rewrite Heq. exact (fun Hin => Hin).
Qed.


(** C8: once the price is resolved to [price_id] with [sub_mode], the
    handler calls [Session.create] with exactly these arguments, and
    when the call returns a session the handler returns
    [{"url": session.url}]. *)
Theorem session_created_with (s s1 : state W)
    (price_id : option string) (sub_mode : string) :
  resolve_price cfg request s = (Return (price_id, sub_mode), s1) ->
  let params :=
    {| SessionParams.payment_method_types := ["card"];
       SessionParams.line_items :=
         [ {| LineItem.price := price_id; LineItem.quantity := 1 |} ];
       SessionParams.mode := sub_mode;
       SessionParams.customer_email :=
         SubscriptionRequest.user_email request;
       SessionParams.success_url := DOMAIN ++ "/success.html";
       SessionParams.cancel_url := DOMAIN ++ "/cancel.html";
       SessionParams.metadata :=
         {[ "user_email" := SubscriptionRequest.user_email request ]} |}
  in
  session_call_made params s1
    (snd (create_subscription_session cfg request s))
  /\ forall cs w2,
       Session_create params (world s1) = (Return cs, w2) ->
       fst (create_subscription_session cfg request s) =
         Return {[ "url" := PyStr (Session.url cs) ]}.
Proof.
  intros Hres params.
  rewrite create_subscription_session_body.
  rewrite (checkout_body_resolved _ _ _ _ Hres). cbn zeta.
  change (session_params request price_id sub_mode) with params.
  unfold session_call_made.
  destruct (Session_create params (world s1)) as [o w2].
  split.
  - exists o, w2. split; [reflexivity|]. destruct o; reflexivity.
  - intros cs w2' [= -> ->]. reflexivity.
Qed.

End Checkout.

(** Witnesses and examples on the reference provider. *)

Lemma invalid_type_rejected_witness :
  create_subscription_session Samples.cfg Samples.premium_request
                              (init RefStripe.empty) =
    (Raise (HTTPException 400
       "An error occurred: Invalid subscription type. Must be 'standard' or 'custom'."),
     init RefStripe.empty).
Proof.
  apply (invalid_type_rejected Samples.cfg Samples.premium_request
           (init RefStripe.empty)); discriminate.
Defined.

Lemma session_created_with_witness :
  fst (create_subscription_session Samples.cfg Samples.standard_request
                                   (init RefStripe.empty)) =
    Return {[ "url" := PyStr "https://checkout.stripe.com/c/pay/cs_0" ]}.
Proof.
  apply (proj2 (session_created_with Samples.cfg Samples.standard_request
                  (init RefStripe.empty) (init RefStripe.empty)
                  (Some "price_standard") "subscription" eq_refl)
           {| Session.id := "cs_0";
              Session.url := "https://checkout.stripe.com/c/pay/cs_0" |}
           (RefStripe.World [] [
              ({| Session.id := "cs_0";
                  Session.url := "https://checkout.stripe.com/c/pay/cs_0" |},
               session_params Samples.standard_request
                 (Some "price_standard") "subscription")] [] [])).
  reflexivity.
Defined.

(** The three provider calls of the custom flow, each failing in turn:
    the failure is reported and is the last call made. *)
Example lookup_failure_reported :
  let run := create_subscription_session Samples.cfg Samples.custom_19_99
               (init (Samples.failing [Some (StripeError "Invalid API Key provided")])) in
  fst run = Raise (HTTPException 400 "Stripe error: Invalid API Key provided")
  /\ calls (snd run) =
       [(CPrice_list (Some "prod_custom") 100,
         Some (StripeError "Invalid API Key provided"))].
Proof. split; reflexivity. Qed.

Example creation_failure_reported :
  let run := create_subscription_session Samples.cfg Samples.custom_19_99
               (init (Samples.failing [None; Some (StripeError "Rate limit")])) in
  fst run = Raise (HTTPException 400 "Stripe error: Rate limit")
  /\ calls (snd run) =
       [(CPrice_list (Some "prod_custom") 100, None);
        (CPrice_create 1998 "eur" (Some "prod_custom"),
         Some (StripeError "Rate limit"))].
Proof. split; reflexivity. Qed.

Example session_failure_reported :
  let run := create_subscription_session Samples.cfg Samples.standard_request
               (init (Samples.failing [Some (OtherException "connection reset")])) in
  fst run = Raise (HTTPException 400 "An error occurred: connection reset")
  /\ map snd (calls (snd run)) = [Some (OtherException "connection reset")].
Proof. split; reflexivity. Qed.

(** A price that is not a number: [int()] raises, which is reported. *)
Example nan_price_reported :
  create_subscription_session Samples.cfg
    (SubscriptionRequest.Build "custom" "a@b.com" S754_nan)
    (init RefStripe.empty) =
  (Raise (HTTPException 400
            "An error occurred: cannot convert float NaN to integer"),
   init RefStripe.empty).
Proof. reflexivity. Qed.

(** ** Existing-price lookup *)

Section FirstMatch.
Variables (amount : Z) (currency : string).



End FirstMatch.







(** ** The custom flow: amount and price reuse *)

(** [int()] of a finite float: the magnitude is the integer part of
    [m * 2^e], the sign is kept (rounding toward zero). *)
Lemma trunc_finite (sgn : bool) (m : positive) (e : Z) :
  exists n : Z,
    Float64.trunc (S754_finite sgn m e) = Some (if sgn then - n else n)
    /\ (0 <= e -> n = Z.pos m * 2 ^ e)
    /\ (e < 0 -> n * 2 ^ (- e) <= Z.pos m < (n + 1) * 2 ^ (- e)).
Proof.
  exists (Z.shiftl (Z.pos m) e). split; [reflexivity|]. split.
  - intros He. apply Z.shiftl_mul_pow2. exact He.
  - intros He.
    replace e with (- (- e)) at 1 3 by lia.
    rewrite Z.shiftl_opp_r, Z.shiftr_div_pow2 by lia.
    assert (Hpow : 0 < 2 ^ (- e)) by (apply Z.pow_pos_nonneg; lia).
    pose proof (Z.mul_div_le (Z.pos m) (2 ^ (- e)) Hpow) as Hlo.
    pose proof (Z.mul_succ_div_gt (Z.pos m) (2 ^ (- e)) Hpow) as Hhi.
    unfold Z.succ in Hhi.
    set (q := Z.pos m / 2 ^ (- e)) in *.
    set (P := 2 ^ (- e)) in *.
    lia.
Qed.

(** The float the request of the scenario carries is the binary64
    number nearest to 19.99: it is canonical and differs from
    [1999/100] by at most half a unit of its last binary place. *)
Lemma f19_99_nearest :
  Float64.valid Float64.f19_99 = true
  /\ exists m : positive,
       Float64.f19_99 = S754_finite false m (-48)
       /\ Z.abs (100 * Z.pos m - 1999 * 2 ^ 48) <= 50.
Proof.
  split; [reflexivity|].
  eexists. split; [reflexivity|]. vm_compute. discriminate.
Qed.

Section CustomFlow.
Context {W : Type} `{StripeAPI W}.
Variable cfg : Config.t.
Variable request : SubscriptionRequest.t.
Hypothesis Hcustom :
  SubscriptionRequest.subscription_type request = "custom".

(** The custom branch, call by call: the amount is
    [int(price * 100)]; it is looked up, and created when the lookup
    gives nothing (or an empty id), with currency ["eur"] under the
    configured product. *)
Lemma resolve_price_custom (s : state W) (n : Z) :
  int_of_float (Float64.mul (SubscriptionRequest.price request)
                            (Float64.of_Z 100)) = Return n ->
  resolve_price cfg request s =
    let product := Config.custom_sub_id cfg in
    let '(o, w1) := Price_list product 100 (world s) in
    let s1 := State w1 (calls s ++ [(CPrice_list product 100, raised o)])
                    (stdout s) in
    match o with
    | Raise e => (Raise e, s1)
    | Return page =>
        let found := first_match n "eur" page in
        if truthy found then (Return (found, "payment"), s1)
        else
          let '(o2, w2) := Price_create n "eur" product w1 in
          (match o2 with
           | Return p => Return (Some (Price.id p), "payment")
           | Raise e => Raise e
           end,
           State w2 (calls s1 ++ [(CPrice_create n "eur" product,
                                   raised o2)]) (stdout s))
    end.
Proof.
  intros Hn. unfold resolve_price. rewrite Hcustom.
  cbn -[Float64.mul Float64.of_Z]. run. rewrite Hn.
  cbn -[first_match].
  destruct (Price_list _ _ _) as [[page|e] w1]; [|reflexivity].
  cbn -[first_match]. unfold default_currency.
  destruct (truthy (first_match n "eur" page)); cbn -[first_match];
    [reflexivity|].
  destruct (Price_create _ _ _ _) as [[p|e] w2]; reflexivity.
Qed.


End CustomFlow.

(** ** Price, mode and failures of the checkout, by the provider's answers *)

Section CheckoutOutcomes.
Context {W : Type} `{StripeAPI W}.
Variable cfg : Config.t.
Variable request : SubscriptionRequest.t.

(** C5: a ["standard"] request resolves to the configured standard
    price id with mode ["subscription"], and that is what
    [Session.create] is called with.  A ["custom"] request whose
    amount converts does resolve once the provider has answered: to the
    listed id when the page has a usable match, to the id of the price
    [Price.create] returned otherwise; in both cases, and whenever it
    resolves at all, the mode is ["payment"], and that is what
    [Session.create] is called with. *)
Theorem price_and_mode_by_type (s : state W) :
  (SubscriptionRequest.subscription_type request = "standard" ->
   resolve_price cfg request s =
     (Return (Config.standard_price_id cfg, "subscription"), s)
   /\ session_call_made
        (session_params request (Config.standard_price_id cfg)
                        "subscription")
        s (snd (create_subscription_session cfg request s)))
  /\ (SubscriptionRequest.subscription_type request = "custom" ->
      forall (n : Z) (page : list Price.t) (w1 : W),
        int_of_float (Float64.mul (SubscriptionRequest.price request)
                                  (Float64.of_Z 100)) = Return n ->
        Price_list (Config.custom_sub_id cfg) 100 (world s)
          = (Return page, w1) ->
        let found := first_match n "eur" page in
        let s1 :=
          State w1
            (calls s ++ [(CPrice_list (Config.custom_sub_id cfg) 100,
                          None)])
            (stdout s) in
        (truthy found = true ->
         resolve_price cfg request s = (Return (found, "payment"), s1)
         /\ session_call_made (session_params request found "payment")
              s1 (snd (create_subscription_session cfg request s)))
        /\ (truthy found = false ->
            forall (p : Price.t) (w2 : W),
              Price_create n "eur" (Config.custom_sub_id cfg) w1
                = (Return p, w2) ->
              let s2 :=
                State w2
                  (calls s1 ++
                     [(CPrice_create n "eur" (Config.custom_sub_id cfg),
                       None)])
                  (stdout s) in
              resolve_price cfg request s
                = (Return (Some (Price.id p), "payment"), s2)
              /\ session_call_made
                   (session_params request (Some (Price.id p)) "payment")
                   s2 (snd (create_subscription_session cfg request s))))
  /\ (SubscriptionRequest.subscription_type request = "custom" ->
      forall price_id sub_mode s1,
        resolve_price cfg request s = (Return (price_id, sub_mode), s1) ->
        sub_mode = "payment"
        /\ session_call_made (session_params request price_id "payment")
             s1 (snd (create_subscription_session cfg request s)))
  /\ forall price_id sub_mode,
       SessionParams.mode (session_params request price_id sub_mode)
         = sub_mode
       /\ map LineItem.price
            (SessionParams.line_items
               (session_params request price_id sub_mode))
          = [price_id].
Proof.
  assert (Hmade : forall price_id sub_mode s1,
    resolve_price cfg request s = (Return (price_id, sub_mode), s1) ->
    session_call_made (session_params request price_id sub_mode) s1
      (snd (create_subscription_session cfg request s))).
  { intros price_id sub_mode s1 Hres.
    rewrite create_subscription_session_body.
    rewrite (checkout_body_resolved _ _ _ _ _ _ Hres). cbn zeta.
    destruct (Session_create _ _) as [o w2] eqn:Hsc.
    exists o, w2. split; [exact Hsc|].
    destruct o; reflexivity. }
  split; [|split; [|split]].
  - intros Hty.
    assert (Hres : resolve_price cfg request s =
              (Return (Config.standard_price_id cfg, "subscription"), s)).
    { unfold resolve_price. rewrite Hty. reflexivity. }
    split; [exact Hres|]. apply Hmade, Hres.
  - intros Hty n page w1 Hn Hpl found s1.
    pose proof (resolve_price_custom cfg request Hty s n Hn) as Hres.
    cbn zeta in Hres. rewrite Hpl in Hres.
    cbv beta iota zeta in Hres. cbn [raised] in Hres.
    fold found in Hres. fold s1 in Hres.
    split.
    + intros Htr. rewrite Htr in Hres.
      split; [exact Hres | apply Hmade, Hres].
    + intros Htr p w2 Hpc s2. rewrite Htr, Hpc in Hres.
      cbv beta iota zeta in Hres. cbn [raised] in Hres.
      fold s2 in Hres.
      split; [exact Hres | apply Hmade, Hres].
  - intros Hty price_id sub_mode s1 Hres.
    assert (Hmode : sub_mode = "payment").
    { revert Hres. unfold resolve_price. rewrite Hty.
      cbn -[Float64.mul Float64.of_Z]. run.
      destruct (int_of_float _) as [n|e]; [|discriminate].
      destruct (Price_list _ _ _) as [[prices|e] w1]; [|discriminate].
      destruct (negb _).
      + destruct (Price_create _ _ _ _) as [[p|e] w2]; [|discriminate].
        intros [= _ <- _]. reflexivity.
      + intros [= _ <- _]. reflexivity. }
    subst sub_mode. split; [reflexivity|]. apply Hmade, Hres.
  - intros price_id sub_mode. split; reflexivity.
Qed.

(** C9: every failure of the checkout path is reported as
    [HTTPException(400)]: a Stripe error with the provider's message
    after ["Stripe error: "], any other exception with its text after
    ["An error occurred: "].  This holds for the failures that are not
    provider calls (an invalid type, an amount [int()] cannot convert)
    and for a failure of each provider call (the listing, the price
    creation, the session creation).  The handler returns a body only
    when its last call, [Session.create], returned; a provider call
    that raises is the last call the handler makes (nothing is
    retried, nothing is called after a failure), and its exception is
    the one reported. *)
Theorem checkout_failures_reported (s : state W) :
  let detail (e : exn) : string :=
    if isinstance_StripeError e
    then "Stripe error: " ++ user_message e
    else "An error occurred: " ++ str e in
  let res := fst (create_subscription_session cfg request s) in
  let s' := snd (create_subscription_session cfg request s) in
  ((exists body, res = Return body)
   \/ exists e, fst (checkout_body cfg request s) = Raise e
               /\ res = Raise (HTTPException 400 (detail e)))
  /\ (exists made,
        calls s' = (calls s ++ made)%list
        /\ (clean made
            \/ exists (before : list (call * option exn)) c e,
                 made = (before ++ [(c, Some e)])%list
                 /\ clean before
                 /\ res = Raise (HTTPException 400 (detail e)))
        /\ (forall body, res = Return body ->
            exists (before : list (call * option exn)) params,
              made = (before ++ [(CSession_create params, None)])%list))
  /\ s' = snd (checkout_body cfg request s)
  /\ (forall m, detail (StripeError m) = "Stripe error: " ++ m)
  /\ (SubscriptionRequest.subscription_type request <> "standard" ->
      SubscriptionRequest.subscription_type request <> "custom" ->
      res = Raise (HTTPException 400
              "An error occurred: Invalid subscription type. Must be 'standard' or 'custom'.")
      /\ s' = s)
  /\ (SubscriptionRequest.subscription_type request = "custom" ->
      forall e,
        int_of_float (Float64.mul (SubscriptionRequest.price request)
                                  (Float64.of_Z 100)) = Raise e ->
        res = Raise (HTTPException 400 ("An error occurred: " ++ str e))
        /\ s' = s)
  /\ (SubscriptionRequest.subscription_type request = "custom" ->
      forall n e w1,
        int_of_float (Float64.mul (SubscriptionRequest.price request)
                                  (Float64.of_Z 100)) = Return n ->
        Price_list (Config.custom_sub_id cfg) 100 (world s)
          = (Raise e, w1) ->
        res = Raise (HTTPException 400 (detail e))
        /\ s' = State w1
                  (calls s ++ [(CPrice_list (Config.custom_sub_id cfg) 100,
                                Some e)])
                  (stdout s))
  /\ (SubscriptionRequest.subscription_type request = "custom" ->
      forall n page w1 e w2,
        int_of_float (Float64.mul (SubscriptionRequest.price request)
                                  (Float64.of_Z 100)) = Return n ->
        Price_list (Config.custom_sub_id cfg) 100 (world s)
          = (Return page, w1) ->
        truthy (first_match n "eur" page) = false ->
        Price_create n "eur" (Config.custom_sub_id cfg) w1
          = (Raise e, w2) ->
        res = Raise (HTTPException 400 (detail e))
        /\ s' = State w2
                  (calls s ++
                     [(CPrice_list (Config.custom_sub_id cfg) 100, None);
                      (CPrice_create n "eur" (Config.custom_sub_id cfg),
                       Some e)])
                  (stdout s))
  /\ (SubscriptionRequest.subscription_type request = "standard" ->
      forall e w2,
        Session_create
          (session_params request (Config.standard_price_id cfg)
                          "subscription") (world s) = (Raise e, w2) ->
        res = Raise (HTTPException 400 (detail e))
        /\ s' = State w2
                  (calls s ++
                     [(CSession_create
                         (session_params request
                            (Config.standard_price_id cfg) "subscription"),
                       Some e)])
                  (stdout s))
  /\ (SubscriptionRequest.subscription_type request = "custom" ->
      forall n page w1 e w2,
        int_of_float (Float64.mul (SubscriptionRequest.price request)
                                  (Float64.of_Z 100)) = Return n ->
        Price_list (Config.custom_sub_id cfg) 100 (world s)
          = (Return page, w1) ->
        truthy (first_match n "eur" page) = true ->
        Session_create
          (session_params request (first_match n "eur" page) "payment")
          w1 = (Raise e, w2) ->
        res = Raise (HTTPException 400 (detail e))
        /\ s' = State w2
                  (calls s ++
                     [(CPrice_list (Config.custom_sub_id cfg) 100, None);
                      (CSession_create
                         (session_params request
                            (first_match n "eur" page) "payment"),
                       Some e)])
                  (stdout s))
  /\ (SubscriptionRequest.subscription_type request = "custom" ->
      forall n page w1 p w2 e w3,
        int_of_float (Float64.mul (SubscriptionRequest.price request)
                                  (Float64.of_Z 100)) = Return n ->
        Price_list (Config.custom_sub_id cfg) 100 (world s)
          = (Return page, w1) ->
        truthy (first_match n "eur" page) = false ->
        Price_create n "eur" (Config.custom_sub_id cfg) w1
          = (Return p, w2) ->
        Session_create
          (session_params request (Some (Price.id p)) "payment")
          w2 = (Raise e, w3) ->
        res = Raise (HTTPException 400 (detail e))
        /\ s' = State w3
                  (calls s ++
                     [(CPrice_list (Config.custom_sub_id cfg) 100, None);
                      (CPrice_create n "eur" (Config.custom_sub_id cfg),
                       None);
                      (CSession_create
                         (session_params request (Some (Price.id p))
                                         "payment"),
                       Some e)])
                  (stdout s))
  /\ (forall price_id sub_mode s1 e w2,
        resolve_price cfg request s = (Return (price_id, sub_mode), s1) ->
        Session_create (session_params request price_id sub_mode)
                       (world s1) = (Raise e, w2) ->
        res = Raise (HTTPException 400 (detail e))
        /\ s' = State w2
                  (calls s1 ++
                     [(CSession_create
                         (session_params request price_id sub_mode),
                       Some e)])
                  (stdout s1)).
Proof.
  intros detail res s'. subst res s'.
  assert (Hint : forall e,
            int_of_float (Float64.mul (SubscriptionRequest.price request)
                                      (Float64.of_Z 100)) = Raise e ->
            isinstance_StripeError e = false).
  { intros e He. destruct (Float64.mul _ _); cbn in He; try discriminate;
      injection He as <-; reflexivity. }
  assert (Hsess : forall price_id sub_mode s1 e w2,
    resolve_price cfg request s = (Return (price_id, sub_mode), s1) ->
    Session_create (session_params request price_id sub_mode)
                   (world s1) = (Raise e, w2) ->
    fst (create_subscription_session cfg request s)
      = Raise (HTTPException 400 (detail e))
    /\ snd (create_subscription_session cfg request s)
       = State w2
           (calls s1 ++
              [(CSession_create (session_params request price_id sub_mode),
                Some e)])
           (stdout s1)).
  { intros price_id sub_mode s1 e w2 Hres Hsc.
    rewrite create_subscription_session_body.
    rewrite (checkout_body_resolved _ _ _ _ _ _ Hres). cbn zeta.
    rewrite Hsc. cbn [fst snd raised]. rewrite checkout_except_400.
    split; reflexivity. }
  repeat match goal with |- _ /\ _ => split end.
  - (* a body or a 400 *)
    rewrite create_subscription_session_body.
    destruct (checkout_body cfg request s) as [[body|e] s1];
      cbn [fst snd]; rewrite ?checkout_except_400.
    + left. eexists. reflexivity.
    + right. exists e. split; reflexivity.
  - (* the record of calls *)
    rewrite create_subscription_session_body.
    destruct (tracked_resolve_price cfg request s) as (made1 & Hc1 & Hf1).
    destruct (resolve_price cfg request s) as [[[price_id sub_mode]|e] s1]
      eqn:Hres; cbn [fst snd] in Hc1, Hf1.
    + rewrite (checkout_body_resolved _ _ _ _ _ _ Hres). cbn zeta.
      pose proof (faithful_Return_clean _ _ Hf1) as Hcl.
      destruct (Session_create _ _) as [[cs|e] w2]; cbn [fst snd calls raised].
      * exists (made1 ++ [(CSession_create
                            (session_params request price_id sub_mode),
                          None)])%list.
        split; [rewrite Hc1; symmetry; apply app_assoc|].
        split.
        -- left. apply clean_app; [exact Hcl|]. repeat constructor.
        -- intros body _. exists made1. eexists. reflexivity.
      * exists (made1 ++ [(CSession_create
                            (session_params request price_id sub_mode),
                          Some e)])%list.
        split; [rewrite Hc1; symmetry; apply app_assoc|].
        split.
        -- right. exists made1. eexists. exists e.
           split; [reflexivity|]. split; [exact Hcl|].
           rewrite checkout_except_400. reflexivity.
        -- intros body Hb. discriminate Hb.
    + rewrite (checkout_body_unresolved _ _ _ _ _ Hres).
      cbn [fst snd]. exists made1. split; [exact Hc1|].
      split; [|intros body Hb; discriminate Hb].
      destruct Hf1 as [Hcl | (before & c & e' & -> & Hb & [= ->])].
      * left. exact Hcl.
      * right. exists before, c, e'. repeat split; [exact Hb|].
        rewrite checkout_except_400. reflexivity.
  - rewrite create_subscription_session_body.
    destruct (checkout_body cfg request s) as [[body|e] s1]; reflexivity.
  - intros m. reflexivity.
  - (* invalid type *)
    intros Hstd Hcus.
    apply String.eqb_neq in Hstd. apply String.eqb_neq in Hcus.
    run. rewrite Hstd, Hcus. split; reflexivity.
  - (* int() raises *)
    intros Hty e He. pose proof (Hint e He) as Hns.
    unfold create_subscription_session, checkout_body, resolve_price.
    rewrite Hty. cbn -[Float64.mul Float64.of_Z]. run. rewrite He.
    cbn. unfold checkout_except. rewrite Hns. split; reflexivity.
  - (* the listing raises *)
    intros Hty n e w1 Hn Hpl.
    pose proof (resolve_price_custom cfg request Hty s n Hn) as Hres.
    cbn zeta in Hres. rewrite Hpl in Hres. cbv beta iota zeta in Hres.
    cbn [raised] in Hres.
    rewrite create_subscription_session_body.
    rewrite (checkout_body_unresolved _ _ _ _ _ Hres).
    cbn [fst snd]. rewrite checkout_except_400. split; reflexivity.
  - (* the creation raises *)
    intros Hty n page w1 e w2 Hn Hpl Htr Hpc.
    pose proof (resolve_price_custom cfg request Hty s n Hn) as Hres.
    cbn zeta in Hres. rewrite Hpl in Hres. cbv beta iota zeta in Hres.
    rewrite Htr, Hpc in Hres. cbv beta iota zeta in Hres.
    cbn [raised calls] in Hres. rewrite <- app_assoc in Hres.
    cbn [app] in Hres.
    rewrite create_subscription_session_body.
    rewrite (checkout_body_unresolved _ _ _ _ _ Hres).
    cbn [fst snd]. rewrite checkout_except_400. split; reflexivity.
  - (* the session creation raises, standard *)
    intros Hty e w2 Hsc.
    apply (Hsess (Config.standard_price_id cfg) "subscription" s e w2);
      [|exact Hsc].
    unfold resolve_price. rewrite Hty. reflexivity.
  - (* the session creation raises, listed price *)
    intros Hty n page w1 e w2 Hn Hpl Htr Hsc.
    pose proof (resolve_price_custom cfg request Hty s n Hn) as Hres.
    cbn zeta in Hres. rewrite Hpl in Hres. cbv beta iota zeta in Hres.
    rewrite Htr in Hres. cbn [raised] in Hres.
    destruct (Hsess _ _ _ e w2 Hres Hsc) as [Hr Hs].
    split; [exact Hr|]. rewrite Hs. cbn [calls stdout].
    rewrite <- app_assoc. reflexivity.
  - (* the session creation raises, created price *)
    intros Hty n page w1 p w2 e w3 Hn Hpl Htr Hpc Hsc.
    pose proof (resolve_price_custom cfg request Hty s n Hn) as Hres.
    cbn zeta in Hres. rewrite Hpl in Hres. cbv beta iota zeta in Hres.
    rewrite Htr, Hpc in Hres. cbv beta iota zeta in Hres.
    cbn [raised calls] in Hres.
    destruct (Hsess _ _ _ e w3 Hres Hsc) as [Hr Hs].
    split; [exact Hr|]. rewrite Hs. cbn [calls stdout].
    rewrite <- !app_assoc. reflexivity.
  - (* the session creation raises, in general *)
    exact Hsess.
Qed.

End CheckoutOutcomes.

Lemma price_and_mode_by_type_witness :
  (resolve_price Samples.cfg Samples.standard_request (init RefStripe.empty)
     = (Return (Some "price_standard", "subscription"),
        init RefStripe.empty)
   /\ session_call_made
        (session_params Samples.standard_request (Some "price_standard")
                        "subscription")
        (init RefStripe.empty)
        (snd (create_subscription_session Samples.cfg
                Samples.standard_request (init RefStripe.empty))))
  /\ (resolve_price Samples.cfg Samples.custom_19_99 (init Samples.stocked)
        = (Return (Some "price_old", "payment"),
           State Samples.stocked
             [(CPrice_list (Some "prod_custom") 100, None)] [])
      /\ session_call_made
           (session_params Samples.custom_19_99 (Some "price_old")
                           "payment")
           (State Samples.stocked
              [(CPrice_list (Some "prod_custom") 100, None)] [])
           (snd (create_subscription_session Samples.cfg
                   Samples.custom_19_99 (init Samples.stocked))))
  /\ (resolve_price Samples.cfg Samples.custom_19_99 (init RefStripe.empty)
        = (Return (Some "price_0", "payment"),
           State (RefStripe.World [Samples.eur "price_0" 1998] [] [] [])
             [(CPrice_list (Some "prod_custom") 100, None);
              (CPrice_create 1998 "eur" (Some "prod_custom"), None)] [])
      /\ session_call_made
           (session_params Samples.custom_19_99 (Some "price_0") "payment")
           (State (RefStripe.World [Samples.eur "price_0" 1998] [] [] [])
              [(CPrice_list (Some "prod_custom") 100, None);
               (CPrice_create 1998 "eur" (Some "prod_custom"), None)] [])
           (snd (create_subscription_session Samples.cfg
                   Samples.custom_19_99 (init RefStripe.empty)))).
Proof.
  split; [|split].
  - apply (proj1 (price_and_mode_by_type Samples.cfg
                    Samples.standard_request (init RefStripe.empty))).
    reflexivity.
  - destruct (proj1 (proj2 (price_and_mode_by_type Samples.cfg
                    Samples.custom_19_99 (init Samples.stocked)))
                 eq_refl 1998
                 (RefStripe.listing (Some "prod_custom") Samples.stocked)
                 Samples.stocked) as [Hfound _];
      [reflexivity | reflexivity |].
    apply Hfound. reflexivity.
  - destruct (proj1 (proj2 (price_and_mode_by_type Samples.cfg
                    Samples.custom_19_99 (init RefStripe.empty)))
                 eq_refl 1998 [] RefStripe.empty) as [_ Hcreated];
      [reflexivity | reflexivity |].
    apply (Hcreated eq_refl (Samples.eur "price_0" 1998)
             (RefStripe.World [Samples.eur "price_0" 1998] [] [] [])).
    reflexivity.
Defined.

Lemma checkout_failures_reported_witness :
  fst (create_subscription_session Samples.cfg Samples.premium_request
         (init RefStripe.empty))
    = Raise (HTTPException 400
        "An error occurred: Invalid subscription type. Must be 'standard' or 'custom'.")
  /\ fst (create_subscription_session Samples.cfg
            (SubscriptionRequest.Build "custom" "a@b.com" S754_nan)
            (init RefStripe.empty))
     = Raise (HTTPException 400
         "An error occurred: cannot convert float NaN to integer")
  /\ fst (create_subscription_session Samples.cfg Samples.custom_19_99
            (init (Samples.failing
                     [Some (StripeError "Invalid API Key provided")])))
     = Raise (HTTPException 400 "Stripe error: Invalid API Key provided")
  /\ fst (create_subscription_session Samples.cfg Samples.custom_19_99
            (init (Samples.failing
                     [None; Some (StripeError "Rate limit")])))
     = Raise (HTTPException 400 "Stripe error: Rate limit")
  /\ fst (create_subscription_session Samples.cfg Samples.standard_request
            (init (Samples.failing
                     [Some (OtherException "connection reset")])))
     = Raise (HTTPException 400 "An error occurred: connection reset").
Proof.
  repeat match goal with |- _ /\ _ => split end.
  - pose proof (checkout_failures_reported Samples.cfg
                  Samples.premium_request (init RefStripe.empty)) as Hall.
    cbv zeta in Hall.
    destruct Hall as (_ & _ & _ & _ & Hinvalid & _).
    apply Hinvalid; discriminate.
  - pose proof (checkout_failures_reported Samples.cfg
                  (SubscriptionRequest.Build "custom" "a@b.com" S754_nan)
                  (init RefStripe.empty)) as Hall.
    cbv zeta in Hall.
    destruct Hall as (_ & _ & _ & _ & _ & Hconv & _).
    apply (Hconv eq_refl
             (ValueError "cannot convert float NaN to integer")).
    reflexivity.
  - pose proof (checkout_failures_reported Samples.cfg
                  Samples.custom_19_99
                  (init (Samples.failing
                           [Some (StripeError "Invalid API Key provided")])))
      as Hall.
    cbv zeta in Hall.
    destruct Hall as (_ & _ & _ & _ & _ & _ & Hlist & _).
    apply (Hlist eq_refl 1998 (StripeError "Invalid API Key provided")
             (Samples.failing [])); reflexivity.
  - pose proof (checkout_failures_reported Samples.cfg
                  Samples.custom_19_99
                  (init (Samples.failing
                           [None; Some (StripeError "Rate limit")])))
      as Hall.
    cbv zeta in Hall.
    destruct Hall as (_ & _ & _ & _ & _ & _ & _ & Hcreate & _).
    apply (Hcreate eq_refl 1998 []
             (Samples.failing [Some (StripeError "Rate limit")])
             (StripeError "Rate limit") (Samples.failing []));
      reflexivity.
  - pose proof (checkout_failures_reported Samples.cfg
                  Samples.standard_request
                  (init (Samples.failing
                           [Some (OtherException "connection reset")])))
      as Hall.
    cbv zeta in Hall.
    destruct Hall as (_ & _ & _ & _ & _ & _ & _ & _ & Hsession & _).
    apply (Hsession eq_refl (OtherException "connection reset")
             (Samples.failing [])); reflexivity.
Defined.

(** ** The custom flow on the reference provider *)

Lemma RefStripe_no_fault (w : RefStripe.t) :
  RefStripe.faults w = [] -> RefStripe.next_fault w = (None, w).
Proof. unfold RefStripe.next_fault. intros ->. reflexivity. Qed.

Lemma truthy_fresh (prefix : string) (n : nat) :
  prefix <> "" -> truthy (Some (RefStripe.fresh prefix n)) = true.
Proof.
  intros Hp. unfold RefStripe.fresh.
  destruct prefix as [|a prefix]; [contradiction|reflexivity].
Qed.

(** C1: the scenario of the specification, price 19.99 with no price
    stored.  The product [19.99 * 100] of binary64 numbers is just below
    1999 and [int()] cuts it to 1998: the handler looks up and creates a
    price of 1998 minor units, in ["eur"], and sells that one. *)
Theorem custom_19_99_charges_1998 :
  let run := create_subscription_session Samples.cfg Samples.custom_19_99
               (init RefStripe.empty) in
  int_of_float (Float64.mul Float64.f19_99 (Float64.of_Z 100))
    = Return 1998
  /\ fst run =
       Return {[ "url" := PyStr "https://checkout.stripe.com/c/pay/cs_0" ]}
  /\ calls (snd run) =
       [ (CPrice_list (Some "prod_custom") 100, None);
         (CPrice_create 1998 "eur" (Some "prod_custom"), None);
         (CSession_create
            (session_params Samples.custom_19_99 (Some "price_0") "payment"),
          None) ]
  /\ RefStripe.prices (world (snd run)) = [Samples.eur "price_0" 1998].
Proof. vm_compute. repeat split. Qed.

(** C2: an account whose custom product lists 101 prices, the one of
    1998 minor units last.  The lookup sees the first 100 only, so the
    flow creates a second price of 1998 minor units in ["eur"] for the
    same product. *)
Theorem crowded_product_gets_duplicate :
  let product := Some "prod_custom" in
  let run := create_subscription_session Samples.cfg Samples.custom_19_99
               (init Samples.crowded) in
  RefStripe.listing product Samples.crowded !! 100%nat
    = Some (Samples.eur "price_old" 1998)
  /\ calls (snd run) =
       [ (CPrice_list product 100, None);
         (CPrice_create 1998 "eur" product, None);
         (CSession_create
            (session_params Samples.custom_19_99 (Some "price_101")
                            "payment"),
          None) ]
  /\ List.filter (matches 1998 "eur")
                 (RefStripe.listing product (world (snd run)))
     = [Samples.eur "price_101" 1998; Samples.eur "price_old" 1998].
Proof. vm_compute. repeat split. Qed.

(** With no fault scripted, the reference provider answers every call. *)
Section NoFault.
Variable w : RefStripe.t.
Hypothesis Hnf : RefStripe.faults w = [].

Lemma Price_list_no_fault (product : option string) (limit : Z) :
  Price_list product limit w =
    (Return (take (Z.to_nat limit) (RefStripe.listing product w)), w).
Proof.
  cbn. unfold RefStripe.Price_list, RefStripe.with_fault.
  rewrite (RefStripe_no_fault w Hnf). reflexivity.
Qed.

Lemma Price_create_no_fault (n : Z) (cur pr : string) :
  Price_create n cur (Some pr) w =
    let p := {| Price.id := RefStripe.fresh "price_"
                              (length (RefStripe.prices w));
                Price.unit_amount := Some n;
                Price.currency := cur;
                Price.product := pr |} in
    (Return p,
     RefStripe.World (p :: RefStripe.prices w) (RefStripe.sessions w)
                     (RefStripe.deliveries w) []).
Proof.
  cbn. unfold RefStripe.Price_create, RefStripe.with_fault.
  rewrite (RefStripe_no_fault w Hnf). rewrite Hnf. reflexivity.
Qed.

Lemma Price_create_no_product (n : Z) (cur : string) :
  exists e, Price_create n cur None w = (Raise e, w).
Proof.
  cbn. unfold RefStripe.Price_create, RefStripe.with_fault.
  rewrite (RefStripe_no_fault w Hnf). eexists. reflexivity.
Qed.

Lemma Session_create_no_fault (params : SessionParams.t) :
  exists cs,
    Session_create params w =
      (Return cs,
       RefStripe.World (RefStripe.prices w)
                       ((cs, params) :: RefStripe.sessions w)
                       (RefStripe.deliveries w) []).
Proof.
  cbn. unfold RefStripe.Session_create, RefStripe.with_fault.
  rewrite (RefStripe_no_fault w Hnf). rewrite Hnf.
  eexists. reflexivity.
Qed.
End NoFault.

Lemma matches_created (n : Z) (cur i pr : string) :
  matches n cur {| Price.id := i; Price.unit_amount := Some n;
                   Price.currency := cur; Price.product := pr |} = true.
Proof.
  unfold matches. cbn. rewrite Z.eqb_refl, String.eqb_refl. reflexivity.
Qed.

(** X12: idempotence on an account that answers every call and lists
    the newest price first: after a custom checkout that succeeded, the
    next custom checkout for the same request resolves its price with
    the listing call alone, reusing the id the first one sold; it
    creates no price. *)
Lemma custom_flow_twice (cfg : Config.t) (request : SubscriptionRequest.t)
    (w : RefStripe.t) (body : gmap string pyval)
    (s1 : state RefStripe.t) :
  SubscriptionRequest.subscription_type request = "custom" ->
  RefStripe.faults w = [] ->
  create_subscription_session cfg request (init w) = (Return body, s1) ->
  exists i : string,
    i <> ""
    /\ In (CSession_create (session_params request (Some i) "payment"),
           None) (calls s1)
    /\ resolve_price cfg request (init (world s1)) =
         (Return (Some i, "payment"),
          State (world s1)
                [(CPrice_list (Config.custom_sub_id cfg) 100, None)] []).
Proof.
  intros Hty Hnf Hrun.
  rewrite create_subscription_session_body in Hrun.
  destruct (int_of_float (Float64.mul (SubscriptionRequest.price request)
                                      (Float64.of_Z 100))) as [n|e] eqn:Hn.
  2:{ exfalso. revert Hrun. unfold checkout_body, resolve_price.
      rewrite Hty. cbn -[Float64.mul Float64.of_Z]. run. rewrite Hn.
      discriminate. }
  pose proof (resolve_price_custom cfg request Hty (init w) n Hn) as Hres.
  cbn zeta in Hres. cbn [init world calls stdout] in Hres.
  rewrite (Price_list_no_fault w Hnf) in Hres. cbn [raised app] in Hres.
  remember (Config.custom_sub_id cfg) as product eqn:Hprod.
  set (found := first_match n "eur" (take (Z.to_nat 100) (RefStripe.listing product w))) in *.
  destruct (truthy found) eqn:Htr.
  - (* reuse *)
    rewrite (checkout_body_resolved _ _ _ _ _ _ Hres) in Hrun.
    cbn zeta in Hrun. cbn [world] in Hrun.
    destruct (Session_create_no_fault w Hnf (session_params request found "payment")) as (cs & Hsc).
    rewrite Hsc in Hrun. injection Hrun as _ <-.
    destruct found as [i|] eqn:Hfound; [|discriminate Htr].
    exists i. split.
    { intros ->. discriminate Htr. }
    split.
    { cbn. right. left. reflexivity. }
    cbn [world].
    match goal with |- resolve_price _ _ (init ?x) = _ => set (w2 := x) end.
    rewrite (resolve_price_custom cfg request Hty (init w2) n Hn).
    cbn zeta. cbn [init world calls stdout].
    rewrite (Price_list_no_fault w2 eq_refl). rewrite <- Hprod.
    change (RefStripe.listing product w2) with (RefStripe.listing product w).
    fold found. rewrite Hfound, Htr. reflexivity.
  - (* creation *)
    destruct product as [pr|].
    2:{ exfalso. destruct (Price_create_no_product w Hnf n "eur") as (e & He).
        rewrite He in Hres.
        rewrite (checkout_body_unresolved _ _ _ _ _ Hres) in Hrun.
        discriminate Hrun. }
    rewrite (Price_create_no_fault w Hnf) in Hres.
    cbv beta iota zeta in Hres. cbn [raised Price.id] in Hres.
    rewrite (checkout_body_resolved _ _ _ _ _ _ Hres) in Hrun.
    cbn zeta in Hrun. cbn [world] in Hrun.
    match type of Hrun with context [Session_create ?ps ?w1] =>
      destruct (Session_create_no_fault w1 eq_refl ps) as (cs & Hsc) end.
    rewrite Hsc in Hrun. injection Hrun as _ <-.
    eexists. split; [|split].
    2:{ cbn. right. right. left. reflexivity. }
    { intros Habs. pose proof (truthy_fresh "price_" (length (RefStripe.prices w)) ltac:(discriminate)) as Ht.
      cbn [Price.id] in Habs. rewrite Habs in Ht. discriminate Ht. }
    cbn [world].
    match goal with |- resolve_price _ _ (init ?x) = _ => set (w2 := x) end.
    rewrite (resolve_price_custom cfg request Hty (init w2) n Hn).
    cbn zeta. cbn [init world calls stdout].
    rewrite (Price_list_no_fault w2 eq_refl). rewrite <- Hprod.
    unfold RefStripe.listing. subst w2. cbn [RefStripe.prices List.filter RefStripe.of_product Price.product].
    rewrite String.eqb_refl.
    change (Z.to_nat 100) with 100%nat. cbn [take first_match].
    rewrite !matches_created. cbn [Price.id].
    rewrite truthy_fresh by discriminate. reflexivity.
Qed.

(** * Further properties *)

(** ** Further properties of the webhook receiver *)

Section WebhookMore.
Context {W : Type} `{StripeAPI W}.
Variable cfg : Config.t.
Variable request : Request.t.

(** X1: every run of [webhook] makes exactly one provider call, the
    verification of the raw body with the header (or [None]) and the
    configured secret; it leaves the world as that call left it, and it
    prints a line exactly when the verification returned an event. *)
Theorem webhook_single_call (s : state W) :
  exists (o : outcome Event.t) (w' : W),
    Webhook_construct_event
      (Request.body request)
      (Request.headers request !! "stripe-signature")
      (Config.webhook_secret cfg) (world s) = (o, w')
    /\ world (snd (webhook cfg request s)) = w'
    /\ calls (snd (webhook cfg request s)) =
         (calls s ++ [(construct_event_call cfg request, raised o)])%list
    /\ length (stdout (snd (webhook cfg request s))) =
         (length (stdout s)
          + match raised o with Some _ => 0 | None => 1 end)%nat.
Proof.
  unfold construct_event_call. run.
  destruct (Webhook_construct_event _ _ _ _) as [[event|e] w'].
  - exists (Return event), w'. cbn.
    destruct (String.eqb (Event.type event) "checkout.session.completed");
      cbn; rewrite length_app; repeat split.
  - exists (Raise e), w'. cbn. repeat split. lia.
Qed.

(** X2: a verified event of any type other than
    [checkout.session.completed] is logged as unhandled, with its type,
    and acknowledged with status 200; nothing else happens. *)
Theorem webhook_logs_unhandled_type (s : state W) (event : Event.t) (w' : W) :
  Webhook_construct_event
    (Request.body request)
    (Request.headers request !! "stripe-signature")
    (Config.webhook_secret cfg) (world s) = (Return event, w') ->
  Event.type event <> "checkout.session.completed" ->
  webhook cfg request s =
    (Return ack,
     State w' (calls s ++ [(construct_event_call cfg request, None)])
           (stdout s ++ ["Unhandled event type " ++ Event.type event])).
Proof.
  intros Hev Hty. apply String.eqb_neq in Hty.
  unfold construct_event_call. run. rewrite Hev. cbn. rewrite Hty.
  reflexivity.
Qed.

(** X3: an exception of [construct_event] that is neither a
    [ValueError] nor a [SignatureVerificationError] is not turned into
    a 400: it leaves the handler unchanged, and nothing is printed. *)
Theorem webhook_other_exception_propagates (s : state W) (e : exn)
    (w' : W) :
  Webhook_construct_event
    (Request.body request)
    (Request.headers request !! "stripe-signature")
    (Config.webhook_secret cfg) (world s) = (Raise e, w') ->
  isinstance_ValueError e = false ->
  isinstance_SignatureVerificationError e = false ->
  webhook cfg request s =
    (Raise e,
     State w' (calls s ++ [(construct_event_call cfg request, Some e)])
           (stdout s)).
Proof.
  intros Hev Hv Hs. unfold construct_event_call. run. rewrite Hev. cbn.
  unfold webhook_except. rewrite Hv, Hs. reflexivity.
Qed.

End WebhookMore.

Lemma webhook_logs_unhandled_type_witness :
  webhook Samples.cfg (Samples.delivery "body2" "t=2,v1=bb")
          (init Samples.hooks) =
    (Return ack,
     State Samples.hooks
       [(construct_event_call Samples.cfg
           (Samples.delivery "body2" "t=2,v1=bb"), None)]
       ["Unhandled event type invoice.paid"]).
Proof.
  apply (webhook_logs_unhandled_type Samples.cfg
           (Samples.delivery "body2" "t=2,v1=bb") (init Samples.hooks)
           Samples.other_event Samples.hooks); [reflexivity|discriminate].
Defined.

Lemma webhook_other_exception_propagates_witness :
  webhook Samples.cfg (Samples.delivery "body1" "t=1,v1=aa")
          (init (Samples.failing [Some (StripeError "No such endpoint")])) =
    (Raise (StripeError "No such endpoint"),
     State (Samples.failing [])
       [(construct_event_call Samples.cfg
           (Samples.delivery "body1" "t=1,v1=aa"),
         Some (StripeError "No such endpoint"))]
       []).
Proof.
  apply (webhook_other_exception_propagates Samples.cfg
           (Samples.delivery "body1" "t=1,v1=aa")
           (init (Samples.failing [Some (StripeError "No such endpoint")]))
           (StripeError "No such endpoint") (Samples.failing []));
    reflexivity.
Defined.

(** ** Further properties of the checkout initiator *)

(** [int()] raises on NaN and on the infinities only, with a
    [ValueError] and an [OverflowError]. *)
Lemma int_of_float_raises (x : Float64.float) (e : exn) :
  int_of_float x = Raise e ->
  (x = S754_nan
   /\ e = ValueError "cannot convert float NaN to integer")
  \/ (exists sgn, x = S754_infinity sgn)
     /\ e = OverflowError "cannot convert float infinity to integer".
Proof.
  destruct x as [sgn|sgn| |sgn m ex]; cbn; try discriminate.
  - intros [= <-]. right. split; [exists sgn|]; reflexivity.
  - intros [= <-]. left. split; reflexivity.
Qed.

Lemma of_Z_100 :
  Float64.of_Z 100 = S754_finite false 7036874417766400 (-46).
Proof. reflexivity. Qed.

Ltac call_shape :=
  cbn [fst snd calls stdout]; rewrite <- ?app_assoc;
  eexists; split; [reflexivity|]; split; [|reflexivity];
  cbn; tauto.

Section CheckoutMore.
Context {W : Type} `{StripeAPI W}.

(** X4: for a ["standard"] request the [price] field and the custom
    product are never looked at: two standard requests with the same
    e-mail, under configurations with the same standard price id, run
    identically, whatever their prices (NaN included). *)
Theorem standard_ignores_price (cfg1 cfg2 : Config.t)
    (r1 r2 : SubscriptionRequest.t) (s : state W) :
  SubscriptionRequest.subscription_type r1 = "standard" ->
  SubscriptionRequest.subscription_type r2 = "standard" ->
  SubscriptionRequest.user_email r1 = SubscriptionRequest.user_email r2 ->
  Config.standard_price_id cfg1 = Config.standard_price_id cfg2 ->
  create_subscription_session cfg1 r1 s
    = create_subscription_session cfg2 r2 s.
Proof.
  intros Ht1 Ht2 Hmail Hid.
  unfold create_subscription_session, checkout_body, resolve_price,
    session_params.
  rewrite Ht1, Ht2, Hmail, Hid. reflexivity.
Qed.

Variable cfg : Config.t.
Variable request : SubscriptionRequest.t.

(** X5: when the product [price * 100] of a ["custom"] request is NaN
    or infinite (a NaN, infinite or too large price), [int()] raises and
    the handler reports 400 with the text of that exception; the state
    is unchanged, so no provider call was made. *)
Theorem custom_unconvertible_price (s : state W) :
  SubscriptionRequest.subscription_type request = "custom" ->
  let product :=
    Float64.mul (SubscriptionRequest.price request) (Float64.of_Z 100) in
  (product = S754_nan ->
   create_subscription_session cfg request s =
     (Raise (HTTPException 400
        "An error occurred: cannot convert float NaN to integer"), s))
  /\ (forall sgn, product = S754_infinity sgn ->
      create_subscription_session cfg request s =
        (Raise (HTTPException 400
           "An error occurred: cannot convert float infinity to integer"),
         s)).
Proof.
  intros Hty product. subst product.
  split; [intros Hp | intros sgn Hp];
    unfold create_subscription_session, checkout_body, resolve_price;
    rewrite Hty; cbn -[Float64.mul Float64.of_Z]; run; rewrite Hp;
    reflexivity.
Qed.

(** X7: whatever the request, the handler prints nothing and makes at
    most three provider calls, in this order and each at most once: the
    price listing, the price creation, the session creation.  It never
    calls the webhook verification. *)
Theorem checkout_call_order (s : state W) :
  exists made : list (call * option exn),
    calls (snd (create_subscription_session cfg request s))
      = (calls s ++ made)%list
    /\ In (kinds made)
          [ []; [CreateSession];
            [ListPrices]; [ListPrices; CreateSession];
            [ListPrices; CreatePrice];
            [ListPrices; CreatePrice; CreateSession] ]
    /\ stdout (snd (create_subscription_session cfg request s))
       = stdout s.
Proof.
  run.
  destruct (String.eqb _ "standard").
  { destruct (Session_create _ _) as [[cs|e] w2]; call_shape. }
  destruct (String.eqb _ "custom").
  2:{ exists []. cbn. rewrite app_nil_r. tauto. }
  destruct (int_of_float _) as [n|e].
  2:{ exists []. cbn. rewrite app_nil_r. tauto. }
  destruct (Price_list _ _ _) as [[page|e] w1]; [|call_shape].
  cbn [fst snd world calls stdout].
  destruct (negb _).
  - destruct (Price_create _ _ _ _) as [[p|e] w2]; [|call_shape].
    cbn [fst snd world calls stdout].
    destruct (Session_create _ _) as [[cs|e] w3]; call_shape.
  - destruct (Session_create _ _) as [[cs|e] w3]; call_shape.
Qed.

End CheckoutMore.

(** Rounding keeps the sign it is given. *)
Lemma binary_round_aux_sign (sgn : bool) (m e : Z) (l : location) :
  binary_round_aux Float64.prec Float64.emax sgn m e l = S754_nan
  \/ sign_bit (binary_round_aux Float64.prec Float64.emax sgn m e l) = sgn.
Proof.
  unfold binary_round_aux.
  destruct (shr_fexp _ _ m e l) as [mrs' e'].
  destruct (shr_fexp _ _ _ e' loc_Exact) as [mrs'' e''].
  destruct (shr_m mrs'') as [|p|p]; [right; reflexivity| |left; reflexivity].
  destruct (Z.leb e'' _); right; reflexivity.
Qed.

(** X6: the amount [int(price * 100)] has the sign of the price: it is
    never negative for a price that is not negative, and never positive
    for a negative one. *)
Theorem amount_has_sign_of_price (x : Float64.float) (n : Z) :
  int_of_float (Float64.mul x (Float64.of_Z 100)) = Return n ->
  if sign_bit x then n <= 0 else 0 <= n.
Proof.
  rewrite of_Z_100. unfold Float64.mul.
  destruct x as [sgn|sgn| |sgn m e]; cbn [SFmul sign_bit].
  - rewrite xorb_false_r. intros [= <-]. destruct sgn; lia.
  - discriminate.
  - discriminate.
  - rewrite xorb_false_r.
    destruct (binary_round_aux_sign sgn
                (Z.pos (m * 7036874417766400)) (e + -46) loc_Exact)
      as [Hnan | Hsign].
    + rewrite Hnan. discriminate.
    + destruct (binary_round_aux _ _ _ _ _ _) as [s0|s0| |s0 m0 e0];
        cbn in Hsign; subst; cbn; try discriminate.
      * intros [= <-]. destruct sgn; lia.
      * intros [= <-].
        pose proof (proj2 (Z.shiftl_nonneg (Z.pos m0) e0) ltac:(lia)).
        destruct sgn; lia.
Qed.

Lemma amount_has_sign_of_price_witness :
  int_of_float (Float64.mul Float64.f19_99 (Float64.of_Z 100))
    = Return 1998
  /\ 0 <= 1998.
Proof.
  split; [reflexivity|].
  apply (amount_has_sign_of_price Float64.f19_99 1998). reflexivity.
Defined.

Section FirstMatchMore.
Variables (amount : Z) (currency : string).

(** X11: the lookup loop over a concatenated listing is the loop over
    the first part, and over the second part only when the first has
    no match: an earlier listed match always wins. *)
Theorem first_match_app (l1 l2 : list Price.t) :
  first_match amount currency (l1 ++ l2) =
    match first_match amount currency l1 with
    | Some i => Some i
    | None => first_match amount currency l2
    end.
Proof.
  induction l1 as [|p l1 IH]; cbn [first_match app]; [reflexivity|].
  destruct (matches amount currency p); [reflexivity | exact IH].
Qed.

End FirstMatchMore.

Section CustomMore.
Context {W : Type} `{StripeAPI W}.
Variable cfg : Config.t.
Variable request : SubscriptionRequest.t.

(** X8: every call that a ["custom"] request makes is for the configured
    custom product and the amount [int(price * 100)]: a listing is of
    that product with [limit=100], a created price has that amount,
    currency ["eur"] and that product, and a session is in mode
    ["payment"]. *)
Theorem custom_calls_arguments (s : state W) (n : Z) :
  SubscriptionRequest.subscription_type request = "custom" ->
  int_of_float (Float64.mul (SubscriptionRequest.price request)
                            (Float64.of_Z 100)) = Return n ->
  exists made : list (call * option exn),
    calls (snd (create_subscription_session cfg request s))
      = (calls s ++ made)%list
    /\ forall c o, In (c, o) made ->
         match c with
         | CPrice_list product limit =>
             product = Config.custom_sub_id cfg /\ limit = 100
         | CPrice_create unit_amount currency product =>
             unit_amount = n /\ currency = "eur"
             /\ product = Config.custom_sub_id cfg
         | CSession_create params =>
             SessionParams.mode params = "payment"
             /\ SessionParams.customer_email params
                = SubscriptionRequest.user_email request
         | CWebhook_construct_event _ _ _ => False
         end.
Proof.
  intros Hty Hn.
  rewrite create_subscription_session_body.
  pose proof (resolve_price_custom cfg request Hty s n Hn) as Hres.
  cbn zeta in Hres.
  destruct (Price_list _ _ _) as [[page|e] w1].
  2:{ rewrite (checkout_body_unresolved _ _ _ _ _ Hres).
      eexists. split; [reflexivity|].
      intros c o [[= <- <-]|[]]. split; reflexivity. }
  destruct (truthy _).
  - rewrite (checkout_body_resolved _ _ _ _ _ _ Hres). cbn zeta.
    destruct (Session_create _ _) as [o2 w2].
    exists [(CPrice_list (Config.custom_sub_id cfg) 100, None);
            (CSession_create
               (session_params request (first_match n "eur" page)
                               "payment"), raised o2)].
    split.
    { destruct o2; cbn; rewrite <- app_assoc; reflexivity. }
    intros c o [[= <- <-]|[[= <- <-]|[]]]; split; reflexivity.
  - destruct (Price_create _ _ _ _) as [[p|e] w2]; cbn [raised] in Hres.
    + rewrite (checkout_body_resolved _ _ _ _ _ _ Hres). cbn zeta.
      destruct (Session_create _ _) as [o3 w3].
      exists [(CPrice_list (Config.custom_sub_id cfg) 100, None);
              (CPrice_create n "eur" (Config.custom_sub_id cfg), None);
              (CSession_create
                 (session_params request (Some (Price.id p)) "payment"),
               raised o3)].
      split.
      { destruct o3; cbn; rewrite <- !app_assoc; reflexivity. }
      intros c o [[= <- <-]|[[= <- <-]|[[= <- <-]|[]]]];
        repeat split; reflexivity.
    + rewrite (checkout_body_unresolved _ _ _ _ _ Hres).
      eexists. split; [cbn; rewrite <- app_assoc; reflexivity|].
      intros c o [[= <- <-]|[[= <- <-]|[]]]; repeat split; reflexivity.
Qed.

(** X10: when the listed page has no match (or only one with an empty
    id) and [Price.create] returns a price, the session is created for
    the id of that new price, in mode ["payment"]. *)
Theorem created_price_is_sold (s : state W) (n : Z)
    (page : list Price.t) (w1 w2 : W) (p : Price.t) :
  SubscriptionRequest.subscription_type request = "custom" ->
  int_of_float (Float64.mul (SubscriptionRequest.price request)
                            (Float64.of_Z 100)) = Return n ->
  Price_list (Config.custom_sub_id cfg) 100 (world s)
    = (Return page, w1) ->
  truthy (first_match n "eur" page) = false ->
  Price_create n "eur" (Config.custom_sub_id cfg) w1 = (Return p, w2) ->
  session_call_made
    (session_params request (Some (Price.id p)) "payment")
    (State w2
       (calls s ++
          [(CPrice_list (Config.custom_sub_id cfg) 100, None);
           (CPrice_create n "eur" (Config.custom_sub_id cfg), None)])
       (stdout s))
    (snd (create_subscription_session cfg request s)).
Proof.
  intros Hty Hn Hpl Htr Hpc.
  pose proof (resolve_price_custom cfg request Hty s n Hn) as Hres.
  cbn zeta in Hres. rewrite Hpl in Hres.
  cbv beta iota zeta in Hres. rewrite Htr, Hpc in Hres.
  cbv beta iota zeta in Hres. cbn [raised calls] in Hres.
  rewrite <- app_assoc in Hres. cbn [app] in Hres.
  rewrite create_subscription_session_body.
  rewrite (checkout_body_resolved _ _ _ _ _ _ Hres). cbn zeta.
  unfold session_call_made. cbn [world calls stdout].
  destruct (Session_create _ _) as [o w3].
  exists o, w3. split; [reflexivity|]. destruct o; reflexivity.
Qed.

End CustomMore.

(** Witnesses on the reference provider. *)

Lemma standard_ignores_price_witness :
  create_subscription_session Samples.cfg Samples.standard_request
                              (init RefStripe.empty)
  = create_subscription_session Samples.cfg
      (SubscriptionRequest.Build "standard" "a@b.com" S754_nan)
      (init RefStripe.empty).
Proof.
  apply (standard_ignores_price Samples.cfg Samples.cfg
           Samples.standard_request
           (SubscriptionRequest.Build "standard" "a@b.com" S754_nan)
           (init RefStripe.empty)); reflexivity.
Defined.

Lemma custom_unconvertible_price_witness :
  create_subscription_session Samples.cfg
    (SubscriptionRequest.Build "custom" "a@b.com" S754_nan)
    (init RefStripe.empty) =
    (Raise (HTTPException 400
       "An error occurred: cannot convert float NaN to integer"),
     init RefStripe.empty)
  /\ create_subscription_session Samples.cfg
       (SubscriptionRequest.Build "custom" "a@b.com"
          (S754_finite false 9007199254740991 971))
       (init RefStripe.empty) =
       (Raise (HTTPException 400
          "An error occurred: cannot convert float infinity to integer"),
        init RefStripe.empty).
Proof.
  split.
  - apply (proj1 (custom_unconvertible_price Samples.cfg
                    (SubscriptionRequest.Build "custom" "a@b.com" S754_nan)
                    (init RefStripe.empty) eq_refl)).
    reflexivity.
  - apply (proj2 (custom_unconvertible_price Samples.cfg
                    (SubscriptionRequest.Build "custom" "a@b.com"
                       (S754_finite false 9007199254740991 971))
                    (init RefStripe.empty) eq_refl) false).
    reflexivity.
Defined.

Lemma custom_calls_arguments_witness :
  exists made : list (call * option exn),
    calls (snd (create_subscription_session Samples.cfg
                  Samples.custom_19_99 (init Samples.stocked)))
      = made
    /\ forall c o, In (c, o) made ->
         match c with
         | CPrice_list product limit =>
             product = Some "prod_custom" /\ limit = 100
         | CPrice_create unit_amount currency product =>
             unit_amount = 1998 /\ currency = "eur"
             /\ product = Some "prod_custom"
         | CSession_create params =>
             SessionParams.mode params = "payment"
             /\ SessionParams.customer_email params = "a@b.com"
         | CWebhook_construct_event _ _ _ => False
         end.
Proof.
  apply (custom_calls_arguments Samples.cfg Samples.custom_19_99
           (init Samples.stocked) 1998); reflexivity.
Defined.


Lemma created_price_is_sold_witness :
  session_call_made
    (session_params Samples.custom_19_99 (Some "price_0") "payment")
    (State (RefStripe.World [Samples.eur "price_0" 1998] [] [] [])
       [(CPrice_list (Some "prod_custom") 100, None);
        (CPrice_create 1998 "eur" (Some "prod_custom"), None)] [])
    (snd (create_subscription_session Samples.cfg Samples.custom_19_99
            (init RefStripe.empty))).
Proof.
  apply (created_price_is_sold Samples.cfg Samples.custom_19_99
           (init RefStripe.empty) 1998 [] RefStripe.empty
           (RefStripe.World [Samples.eur "price_0" 1998] [] [] [])
           (Samples.eur "price_0" 1998)); reflexivity.
Defined.

Lemma custom_flow_twice_witness :
  exists i : string,
    i <> ""
    /\ In (CSession_create
             (session_params Samples.custom_19_99 (Some i) "payment"),
           None)
          (calls (snd (create_subscription_session Samples.cfg
                         Samples.custom_19_99 (init RefStripe.empty))))
    /\ resolve_price Samples.cfg Samples.custom_19_99
         (init (world (snd (create_subscription_session Samples.cfg
                              Samples.custom_19_99
                              (init RefStripe.empty))))) =
       (Return (Some i, "payment"),
        State (world (snd (create_subscription_session Samples.cfg
                             Samples.custom_19_99 (init RefStripe.empty))))
              [(CPrice_list (Some "prod_custom") 100, None)] []).
Proof.
  apply (custom_flow_twice Samples.cfg Samples.custom_19_99
           RefStripe.empty
           {[ "url" := PyStr "https://checkout.stripe.com/c/pay/cs_0" ]}
           (snd (create_subscription_session Samples.cfg
                   Samples.custom_19_99 (init RefStripe.empty)))
           eq_refl eq_refl).
  vm_compute. reflexivity.
Defined.
